(** * LLM Council backend: a shallow embedding of [backend/openrouter.py]
    and of the two message endpoints of [backend/main.py].

    Python evaluation is modelled by an exception monad [py]; the HTTP
    provider, the council stages of [backend/council.py] and the
    conversation store of [backend/storage.py] are oracles supplied by a
    [World] record: their results (a value or a raised exception) are
    inputs of the embedding. *)

From Stdlib Require Import String List ZArith Bool Lia Permutation.
Import ListNotations.
Open Scope string_scope.
Open Scope list_scope.
Set Warnings "-register-all".

(** ** Python exceptions and the exception monad *)

(** A raised Python exception: its class name and [str(e)].  Every
    exception the code can meet here (httpx transport errors and timeouts,
    [JSONDecodeError], [AttributeError], [IndexError], [KeyError],
    [TypeError], the errors of the store and of the council stages)
    derives from [Exception], so [except Exception] catches it. *)
Record exn := mk_exn { exn_type : string; exn_msg : string }.

Inductive py (A : Type) : Type :=
| PyOk (a : A)
| PyRaise (e : exn).
Arguments PyOk {A} a.
Arguments PyRaise {A} e.

Definition py_bind {A B} (m : py A) (f : A -> py B) : py B :=
  match m with
  | PyOk a => f a
  | PyRaise e => PyRaise e
  end.

Notation "x <- m ;; k" := (py_bind m (fun x => k))
  (at level 61, m at next level, right associativity).
Notation "m ;;; k" := (py_bind m (fun _ => k))
  (at level 61, right associativity).

Definition attr_error := mk_exn "AttributeError" "object has no attribute 'get'".
Definition index_error := mk_exn "IndexError" "list index out of range".
Definition key_error := mk_exn "KeyError" "0".
Definition type_error := mk_exn "TypeError" "object is not subscriptable".
Definition len_error := mk_exn "TypeError" "object has no len()".
Definition json_error := mk_exn "JSONDecodeError" "Expecting value".

(** ** JSON values as [response.json()] returns them *)

Inductive json : Type :=
| JNull
| JBool (b : bool)
| JNum (z : Z)
| JStr (s : string)
| JArr (l : list json)
| JObj (l : list (string * json)).

(** [json.loads] keeps the last binding of a repeated key. *)
Fixpoint assoc_last (k : string) (l : list (string * json)) : option json :=
  match l with
  | [] => None
  | (k', v) :: l' =>
      match assoc_last k l' with
      | Some w => Some w
      | None => if String.eqb k k' then Some v else None
      end
  end.

(** [d.get(k, default)]: only a dict has [.get]. *)
Definition py_get (d : json) (k : string) (default : json) : py json :=
  match d with
  | JObj l =>
      match assoc_last k l with
      | Some v => PyOk v
      | None => PyOk default
      end
  | _ => PyRaise attr_error
  end.

(** Python truthiness. *)
Definition truthy (v : json) : bool :=
  match v with
  | JNull => false
  | JBool b => b
  | JNum z => negb (Z.eqb z 0)
  | JStr s => negb (String.eqb s "")
  | JArr l => match l with [] => false | _ => true end
  | JObj l => match l with [] => false | _ => true end
  end.

(** [v[0]]. *)
Definition py_index0 (v : json) : py json :=
  match v with
  | JArr (x :: _) => PyOk x
  | JArr [] => PyRaise index_error
  | JStr (String c _) => PyOk (JStr (String c EmptyString))
  | JStr EmptyString => PyRaise index_error
  | JObj _ => PyRaise key_error
  | _ => PyRaise type_error
  end.

(** [len(v or "")]. *)
Definition py_len_or_empty (v : json) : py nat :=
  if truthy v then
    match v with
    | JStr s => PyOk (String.length s)
    | JArr l => PyOk (List.length l)
    | JObj l => PyOk (List.length l)
    | _ => PyRaise len_error
    end
  else PyOk 0.

(** ** The HTTP exchange of [query_model] *)

(** An [httpx.Response]: its status and its body, [None] when the body is
    not valid JSON (then [response.json()] raises). *)
Record response := mk_response { status_code : Z; body : option json }.

(** What [client.post(...)] does: raise (transport error, timeout) or
    return a response. *)
Inductive http_outcome : Type :=
| Transport (e : exn)
| Got (r : response).

Definition response_json (r : response) : py json :=
  match body r with
  | Some j => PyOk j
  | None => PyRaise json_error
  end.

(** [_extract_error_message]: the message only goes to the log, so the
    embedding keeps whether evaluating it raises.  [response.json()] is
    guarded by its own [try]; [data.get("error")] is not. *)
Definition _extract_error_message (r : response) : py unit :=
  match body r with
  | None => PyOk tt
  | Some data => _ <- py_get data "error" JNull ;; PyOk tt
  end.

(** The dict returned on success: [{"content": ..., "reasoning_details": ...}],
    [JNull] standing for Python's [None]. *)
Record model_reply := mk_reply { content : json; reasoning_details : json }.

(** A chat message of [messages: List[Dict[str, str]]]. *)
Definition message := list (string * string).

Fixpoint str_get (k : string) (m : message) (default : string) : string :=
  match m with
  | [] => default
  | (k', v) :: m' => if String.eqb k k' then v else str_get k m' default
  end.

(** [prompt_chars = sum(len(msg.get("content", "")) for msg in messages)];
    computed before the [try], only for the log. *)
Definition prompt_chars (messages : list message) : nat :=
  fold_right (fun m acc => String.length (str_get "content" m "") + acc) 0 messages.

(** The body of the [try] of [query_model], after the request. *)
Definition handle_response (r : response) : py (option model_reply) :=
  if Z.leb 400 (status_code r) then
    _extract_error_message r ;;; PyOk None
  else
    data <- response_json r ;;
    choices <- py_get data "choices" (JArr []) ;;
    if negb (truthy choices) then PyOk None
    else
      c0 <- py_index0 choices ;;
      message <- py_get c0 "message" (JObj []) ;;
      usage <- py_get data "usage" (JObj []) ;;
      _ <- py_get usage "completion_tokens" (JStr "n/a") ;;
      _ <- py_get usage "total_tokens" (JStr "n/a") ;;
      c0' <- py_index0 choices ;;
      _ <- py_get c0' "finish_reason" (JStr "unknown") ;;
      content <- py_get message "content" JNull ;;
      reasoning_details <- py_get message "reasoning_details" JNull ;;
      _ <- py_len_or_empty content ;;
      PyOk (Some (mk_reply content reasoning_details)).

(** [query_model(model, messages)]: the outcome of the POST is the
    oracle's; [except Exception] turns every raised exception into [None]. *)
Definition query_model (model : string) (messages : list message)
    (post : http_outcome) : py (option model_reply) :=
  let _ := prompt_chars messages in
  let attempt :=
    match post with
    | Transport e => PyRaise e
    | Got r => handle_response r
    end in
  match attempt with
  | PyOk res => PyOk res
  | PyRaise _ => PyOk None
  end.

(** ** [query_models_parallel]: [asyncio.gather] and the dict comprehension *)

(** Replace the [i]-th slot; nothing happens out of range. *)
Fixpoint set_nth {A : Type} (i : nat) (x : A) (l : list A) : list A :=
  match l, i with
  | [], _ => []
  | _ :: l', O => x :: l'
  | y :: l', S i' => y :: set_nth i' x l'
  end.

Section Gather.
Context {A : Type}.

(** [asyncio.gather] keeps one result slot per awaitable, in argument
    order.  [sched] lists the task indices in the order the tasks finish;
    each result is written into the slot of its own task.  The first
    exception to complete is propagated. *)
Fixpoint gather_fill (slots : list (option A)) (tasks : list (py A))
    (sched : list nat) : py (list (option A)) :=
  match sched with
  | [] => PyOk slots
  | i :: sched' =>
      match nth_error tasks i with
      | Some (PyOk a) => gather_fill (set_nth i (Some a) slots) tasks sched'
      | Some (PyRaise e) => PyRaise e
      | None => gather_fill slots tasks sched'
      end
  end.

(** All slots filled: the barrier is passed. *)
Fixpoint all_done (slots : list (option A)) : option (list A) :=
  match slots with
  | [] => Some []
  | None :: _ => None
  | Some a :: s => match all_done s with Some l => Some (a :: l) | None => None end
  end.

(** [await asyncio.gather] over the tasks: [None] while some task is still pending. *)
Definition gather (tasks : list (py A)) (sched : list nat) : option (py (list A)) :=
  match gather_fill (repeat None (length tasks)) tasks sched with
  | PyRaise e => Some (PyRaise e)
  | PyOk slots =>
      match all_done slots with
      | Some l => Some (PyOk l)
      | None => None
      end
  end.

End Gather.

(** A Python dict with string keys, in insertion order. *)
Section PyDict.
Context {V : Type}.

(** [d[k] = v]: an existing key keeps its position and takes the new value;
    a new key is appended. *)
Fixpoint dict_set (d : list (string * V)) (k : string) (v : V) : list (string * V) :=
  match d with
  | [] => [(k, v)]
  | (k', v') :: d' =>
      if String.eqb k k' then (k', v) :: d' else (k', v') :: dict_set d' k v
  end.

Fixpoint dict_lookup (d : list (string * V)) (k : string) : option V :=
  match d with
  | [] => None
  | (k', v) :: d' => if String.eqb k k' then Some v else dict_lookup d' k
  end.

(** [{k: v for k, v in pairs}]. *)
Definition dict_of_pairs (pairs : list (string * V)) : list (string * V) :=
  fold_left (fun d kv => dict_set d (fst kv) (snd kv)) pairs [].

End PyDict.

(** [mapi] in the style of [enumerate]. *)
Fixpoint mapi_from {A B} (f : nat -> A -> B) (n : nat) (l : list A) : list B :=
  match l with
  | [] => []
  | x :: l' => f n x :: mapi_from f (S n) l'
  end.

(** The [i]-th task, for model [m], meets the outcome [posts i m] of its
    POST: two tasks for the same model id are two distinct requests. *)
Definition query_models_parallel (posts : nat -> string -> http_outcome)
    (models : list string) (messages : list message) (sched : list nat)
    : option (py (list (string * option model_reply))) :=
  let tasks := mapi_from (fun i m => query_model m messages (posts i m)) 0 models in
  match gather tasks sched with
  | None => None
  | Some (PyRaise e) => Some (PyRaise e)
  | Some (PyOk responses) => Some (PyOk (dict_of_pairs (combine models responses)))
  end.

(** The value [query_model] returns in the [i]-th task. *)
Definition task_result (posts : nat -> string -> http_outcome)
    (messages : list message) (i : nat) (m : string) : option model_reply :=
  match query_model m messages (posts i m) with
  | PyOk r => r
  | PyRaise _ => None
  end.

(** ** The message endpoints of [backend/main.py] *)

(** [len(v)] for a JSON value. *)
Definition py_len (v : json) : py nat :=
  match v with
  | JStr s => PyOk (String.length s)
  | JArr l => PyOk (List.length l)
  | JObj l => PyOk (List.length l)
  | _ => PyRaise len_error
  end.

(** A stored conversation; only [conversation["messages"]] is read. *)
Record conversation := mk_conversation { messages : list json }.

(** The collaborators the endpoints call, with the result (or exception)
    each call has.  Stage results are the JSON-serialisable values the
    council functions return. *)
Record world := mk_world {
  get_conversation : string -> py (option conversation);
  add_user_message : string -> string -> py unit;
  update_conversation_title : string -> string -> py unit;
  add_assistant_message : string -> json -> json -> json -> py unit;
  generate_conversation_title : string -> py string;
  run_full_council : string -> py (json * json * json * json);
  stage1_collect_responses : string -> py json;
  stage2_collect_rankings : string -> json -> py (json * json);
  calculate_aggregate_rankings : json -> json -> py json;
  stage3_synthesize_final : string -> json -> json -> py json
}.

(** The [type] field of each streamed [data: {...}] line, with its payload. *)
Inductive event : Type :=
| Stage1Start
| Stage1Complete (data : json)
| Stage2Start
| Stage2Complete (data label_to_model aggregate_rankings : json)
| Stage3Start
| Stage3Complete (data : json)
| TitleComplete (title : string)
| Complete
| Error (msg : string).

Inductive collaborator : Type :=
| CStage1 | CStage2 | CAggregate | CStage3 | CFullCouncil.

(** What a run does, in order: a yielded event, a completed write to the
    store, a call of a council function, the start of the title coroutine
    and the point where its result is awaited. *)
Inductive act : Type :=
| Emit (ev : event)
| StoreUser (cid text : string)
| StoreTitle (cid title : string)
| StoreAssistant (cid : string) (s1 s2 s3 : json)
| Call (c : collaborator)
| TitleSpawn
| TitleJoin.

(** The run monad: an outcome and the trace of what was done. *)
Definition M (A : Type) : Type := py A * list act.

Definition mret {A} (a : A) : M A := (PyOk a, []).

Definition mbind {A B} (m : M A) (f : A -> M B) : M B :=
  match fst m with
  | PyOk a => let r := f a in (fst r, app (snd m) (snd r))
  | PyRaise e => (PyRaise e, snd m)
  end.

Notation "x <-- m ;; k" := (mbind m (fun x => k))
  (at level 61, m at next level, right associativity).
Notation "m ;;- k" := (mbind m (fun _ => k))
  (at level 61, right associativity).

Definition lift {A} (p : py A) : M A := (p, []).
Definition tell (a : act) : M unit := (PyOk tt, [a]).

(** [yield f"data: {json.dumps(...)}\n\n"]. *)
Definition yield_ (ev : event) : M unit := tell (Emit ev).

(** A write to the store: it either completes or raises without effect. *)
Definition store (p : py unit) (a : act) : M unit :=
  match p with
  | PyOk _ => (PyOk tt, [a])
  | PyRaise e => (PyRaise e, [])
  end.

(** [await f(...)] of a council function. *)
Definition call {A} (c : collaborator) (p : py A) : M A := tell (Call c) ;;- lift p.

(** [try: body except Exception as e: handler(e)]. *)
Definition try_except {A} (m : M A) (h : exn -> M A) : M A :=
  match fst m with
  | PyOk a => m
  | PyRaise e => let r := h e in (fst r, app (snd m) (snd r))
  end.

Definition http_404 := mk_exn "HTTPException" "Conversation not found".

Section Endpoints.
Variable w : world.

(** The [try] block of [event_generator] in [send_message_stream]. *)
Definition stream_body (cid text : string) (is_first_message : bool) : M unit :=
  store (add_user_message w cid text) (StoreUser cid text) ;;-
  (if is_first_message then tell TitleSpawn else mret tt) ;;-
  yield_ Stage1Start ;;-
  stage1_results <-- call CStage1 (stage1_collect_responses w text) ;;
  lift (py_len stage1_results) ;;-
  yield_ (Stage1Complete stage1_results) ;;-
  yield_ Stage2Start ;;-
  r2 <-- call CStage2 (stage2_collect_rankings w text stage1_results) ;;
  let (stage2_results, label_to_model) := r2 in
  aggregate_rankings <-- call CAggregate
      (calculate_aggregate_rankings w stage2_results label_to_model) ;;
  lift (py_len stage2_results) ;;-
  yield_ (Stage2Complete stage2_results label_to_model aggregate_rankings) ;;-
  yield_ Stage3Start ;;-
  stage3_result <-- call CStage3
      (stage3_synthesize_final w text stage1_results stage2_results) ;;
  lift (py_get stage3_result "model" (JStr "unknown")) ;;-
  yield_ (Stage3Complete stage3_result) ;;-
  (if is_first_message then
     tell TitleJoin ;;-
     title <-- lift (generate_conversation_title w text) ;;
     store (update_conversation_title w cid title) (StoreTitle cid title) ;;-
     yield_ (TitleComplete title)
   else mret tt) ;;-
  store (add_assistant_message w cid stage1_results stage2_results stage3_result)
    (StoreAssistant cid stage1_results stage2_results stage3_result) ;;-
  yield_ Complete.

(** [event_generator]: the body under [except Exception as e], whose
    handler yields one [error] event. *)
Definition event_generator (cid text : string) (is_first_message : bool) : M unit :=
  try_except (stream_body cid text is_first_message)
    (fun e => yield_ (Error (exn_msg e))).

(** [send_message_stream]: the lookup and the 404 happen before the
    generator is built; the endpoint returns the generator. *)
Definition send_message_stream (cid text : string) : py (M unit) :=
  match get_conversation w cid with
  | PyRaise e => PyRaise e
  | PyOk None => PyRaise http_404
  | PyOk (Some conversation) =>
      PyOk (event_generator cid text
              (Nat.eqb (List.length (messages conversation)) 0))
  end.

Record council_response := mk_council_response {
  stage1 : json; stage2 : json; stage3 : json; metadata : json }.

(** [send_message], the blocking endpoint: no [try] anywhere. *)
Definition send_message (cid text : string) : M council_response :=
  conversation <-- lift (get_conversation w cid) ;;
  match conversation with
  | None => lift (PyRaise http_404)
  | Some conversation =>
      let is_first_message := Nat.eqb (List.length (messages conversation)) 0 in
      store (add_user_message w cid text) (StoreUser cid text) ;;-
      (if is_first_message then
         tell TitleSpawn ;;- tell TitleJoin ;;-
         title <-- lift (generate_conversation_title w text) ;;
         store (update_conversation_title w cid title) (StoreTitle cid title)
       else mret tt) ;;-
      r <-- call CFullCouncil (run_full_council w text) ;;
      let '(stage1_results, stage2_results, stage3_result, meta) := r in
      lift (py_len stage1_results) ;;-
      lift (py_len stage2_results) ;;-
      lift (py_get stage3_result "model" (JStr "unknown")) ;;-
      store (add_assistant_message w cid stage1_results stage2_results stage3_result)
        (StoreAssistant cid stage1_results stage2_results stage3_result) ;;-
      mret (mk_council_response stage1_results stage2_results stage3_result meta)
  end.

End Endpoints.

(** The events of a trace, in order. *)
Fixpoint events (tr : list act) : list event :=
  match tr with
  | [] => []
  | Emit ev :: tr' => ev :: events tr'
  | _ :: tr' => events tr'
  end.

(** [d.get(k)] on a dict: [None] when the key is absent. *)
Definition obj_get (l : list (string * json)) (k : string) : json :=
  match assoc_last k l with
  | Some v => v
  | None => JNull
  end.

(** An answer text as the provider sends it: a string, or [null]. *)
Definition text_or_none (v : json) : bool :=
  match v with
  | JStr _ | JNull => true
  | _ => false
  end.

(** ** Properties of [query_model] *)

Lemma py_get_obj (l : list (string * json)) (k : string) (d : json) :
  py_get (JObj l) k d = PyOk (match assoc_last k l with Some v => v | None => d end).
Proof. simpl. destruct (assoc_last k l); reflexivity. Qed.

Lemma py_get_obj_none (l : list (string * json)) (k : string) :
  py_get (JObj l) k JNull = PyOk (obj_get l k).
Proof. apply py_get_obj. Qed.

Lemma query_model_catches (model : string) (msgs : list message) (post : http_outcome) :
  exists r, query_model model msgs post = PyOk r.
Proof.
  unfold query_model.
  destruct (match post with Transport e => PyRaise e | Got r => handle_response r end);
    eauto.
Qed.

(** The success path of [handle_response] on a well-formed body: [choices[0]]
    an object, its [message] (or the default [{}]) an object, [usage] (or
    the default [{}]) an object, and the content a string or [null]. *)
Lemma handle_response_well_formed (st : Z) (l : list (string * json))
    (rest : list json) (c0l ml ul : list (string * json)) :
  (st < 400)%Z ->
  assoc_last "choices" l = Some (JArr (JObj c0l :: rest)) ->
  py_get (JObj c0l) "message" (JObj []) = PyOk (JObj ml) ->
  py_get (JObj l) "usage" (JObj []) = PyOk (JObj ul) ->
  text_or_none (obj_get ml "content") = true ->
  handle_response (mk_response st (Some (JObj l)))
  = PyOk (Some (mk_reply (obj_get ml "content") (obj_get ml "reasoning_details"))).
Proof.
  intros Hst Hch Hm Hu Ht.
  unfold handle_response, response_json; cbn [status_code body py_bind].
  replace (Z.leb 400 st) with false by (symmetry; apply Z.leb_gt; lia).
  rewrite py_get_obj, Hch; cbn [py_bind truthy negb py_index0].
  rewrite Hm, Hu; cbn [py_bind].
  rewrite (py_get_obj ul "completion_tokens"), (py_get_obj ul "total_tokens"),
    (py_get_obj c0l "finish_reason"), !py_get_obj_none; cbn [py_bind].
  destruct (obj_get ml "content") eqn:Hc; try discriminate; [reflexivity|].
  unfold py_len_or_empty; destruct (truthy _); reflexivity.
Qed.

(** C3: [query_model] never raises to its caller: whatever the POST does,
    it returns a value; a transport error or timeout, a status [>= 400], a
    body that is not JSON, a body whose [choices] is absent or empty, and
    any exception while reading the body all give [None]. *)
Theorem query_model_never_raises (model : string) (msgs : list message) :
  (forall post, exists r, query_model model msgs post = PyOk r) /\
  (forall e, query_model model msgs (Transport e) = PyOk None) /\
  (forall r, (400 <= status_code r)%Z -> query_model model msgs (Got r) = PyOk None) /\
  (forall st, query_model model msgs (Got (mk_response st None)) = PyOk None) /\
  (forall st l, (st < 400)%Z ->
     (assoc_last "choices" l = None \/ assoc_last "choices" l = Some (JArr [])) ->
     query_model model msgs (Got (mk_response st (Some (JObj l)))) = PyOk None) /\
  (forall r e, handle_response r = PyRaise e -> query_model model msgs (Got r) = PyOk None).
Proof.
  split; [intro post; apply query_model_catches|].
  split; [reflexivity|].
  split.
  { intros r Hst. unfold query_model, handle_response.
    replace (Z.leb 400 (status_code r)) with true by (symmetry; apply Z.leb_le; lia).
    destruct (_extract_error_message r); reflexivity. }
  split.
  { intro st. unfold query_model, handle_response, response_json; cbn [body status_code].
    destruct (Z.leb 400 st); reflexivity. }
  split.
  { intros st l Hst Hch. unfold query_model, handle_response, response_json.
    cbn [status_code body py_bind].
    replace (Z.leb 400 st) with false by (symmetry; apply Z.leb_gt; lia).
    rewrite py_get_obj; destruct Hch as [-> | ->]; reflexivity. }
  intros r e He. unfold query_model. rewrite He. reflexivity.
Qed.

(** A 2xx reply whose first choice carries a message without [content]. *)
Definition reply_without_content : response :=
  mk_response 200 (Some (JObj [("choices", JArr [JObj [("message", JObj [])]])])).

(** C4, counterexample: on [reply_without_content] [query_model] does not
    return the failure [None] but the dict [{"content": None,
    "reasoning_details": None}]. *)
Lemma query_model_no_content_not_failure :
  query_model "openai/gpt-oss-120b" [] (Got reply_without_content)
    = PyOk (Some (mk_reply JNull JNull))
  /\ query_model "openai/gpt-oss-120b" [] (Got reply_without_content) <> PyOk None.
Proof. split; [reflexivity | discriminate]. Qed.

(** C4, as amended: when the status is below 400, [choices] is a non-empty
    list whose first element is an object, its message (or the default
    [{}]) is an object without a [content] field and [usage] (or its
    default) is an object, [query_model] returns a dict whose content is
    [None] (not the failure [None]), with [reasoning_details] as supplied
    or [None]. *)
Theorem query_model_no_content_returns_none_content (model : string)
    (msgs : list message) (st : Z) (l : list (string * json)) (rest : list json)
    (c0l ml ul : list (string * json)) :
  (st < 400)%Z ->
  assoc_last "choices" l = Some (JArr (JObj c0l :: rest)) ->
  py_get (JObj c0l) "message" (JObj []) = PyOk (JObj ml) ->
  assoc_last "content" ml = None ->
  py_get (JObj l) "usage" (JObj []) = PyOk (JObj ul) ->
  query_model model msgs (Got (mk_response st (Some (JObj l))))
  = PyOk (Some (mk_reply JNull (obj_get ml "reasoning_details"))).
Proof.
  intros Hst Hch Hm Hc Hu.
  assert (Hn : obj_get ml "content" = JNull) by (unfold obj_get; rewrite Hc; reflexivity).
  unfold query_model.
  rewrite (handle_response_well_formed st l rest c0l ml ul Hst Hch Hm Hu);
    rewrite Hn; reflexivity.
Qed.

Lemma query_model_no_content_returns_none_content_witness :
  query_model "openai/gpt-oss-120b" [] (Got reply_without_content)
  = PyOk (Some (mk_reply JNull (obj_get [] "reasoning_details"))).
Proof.
  apply (query_model_no_content_returns_none_content "openai/gpt-oss-120b" []
           200 [("choices", JArr [JObj [("message", JObj [])]])] [] [("message", JObj [])] [] []);
    reflexivity.
Defined.

(** A 2xx reply whose [choices] list is non-empty but whose first element
    is not an object. *)
Definition reply_with_bare_choice : response :=
  mk_response 200 (Some (JObj [("choices", JArr [JStr "hello"])])).

(** C7, counterexample: status below 400 and a non-empty [choices] list,
    yet [choices[0].get] raises [AttributeError] and [query_model] returns
    the failure [None]. *)
Lemma query_model_nonempty_choices_can_fail :
  query_model "openai/gpt-oss-120b" [] (Got reply_with_bare_choice) = PyOk None.
Proof. reflexivity. Qed.

(** C7, as amended: for a status below 400 and a body whose [choices] is a
    non-empty list with an object first, whose message (when present) and
    [usage] (when present) are objects, and whose content is a string,
    [null] or absent, [query_model] succeeds with [content] =
    [choices[0].message.content] and [reasoning_details] the supplied value,
    or [None] when absent; an empty-string content is a success too. *)
Theorem query_model_success (model : string) (msgs : list message) (st : Z)
    (l : list (string * json)) (rest : list json) (c0l ml ul : list (string * json)) :
  (st < 400)%Z ->
  assoc_last "choices" l = Some (JArr (JObj c0l :: rest)) ->
  py_get (JObj c0l) "message" (JObj []) = PyOk (JObj ml) ->
  py_get (JObj l) "usage" (JObj []) = PyOk (JObj ul) ->
  text_or_none (obj_get ml "content") = true ->
  query_model model msgs (Got (mk_response st (Some (JObj l))))
  = PyOk (Some (mk_reply (obj_get ml "content") (obj_get ml "reasoning_details"))).
Proof.
  intros Hst Hch Hm Hu Ht. unfold query_model.
  rewrite (handle_response_well_formed st l rest c0l ml ul Hst Hch Hm Hu Ht).
  reflexivity.
Qed.

(** A 2xx reply with an empty answer and a reasoning trace. *)
Definition reply_empty_answer : list (string * json) :=
  [("choices", JArr [JObj [("message", JObj [("content", JStr "");
                                               ("reasoning_details", JArr [JStr "r"])]);
                           ("finish_reason", JStr "stop")]]);
   ("usage", JObj [("completion_tokens", JNum 1); ("total_tokens", JNum 9)])].

Lemma query_model_success_witness :
  query_model "openai/gpt-oss-120b" [] (Got (mk_response 200 (Some (JObj reply_empty_answer))))
  = PyOk (Some (mk_reply (JStr "") (JArr [JStr "r"]))).
Proof.
  apply (query_model_success "openai/gpt-oss-120b" [] 200 reply_empty_answer []
           [("message", JObj [("content", JStr ""); ("reasoning_details", JArr [JStr "r"])]);
            ("finish_reason", JStr "stop")]
           [("content", JStr ""); ("reasoning_details", JArr [JStr "r"])]
           [("completion_tokens", JNum 1); ("total_tokens", JNum 9)]);
    reflexivity.
Defined.

(** ** Properties of [asyncio.gather] and of the dict comprehension *)

Lemma query_model_task_result (posts : nat -> string -> http_outcome)
    (msgs : list message) (i : nat) (m : string) :
  query_model m msgs (posts i m) = PyOk (task_result posts msgs i m).
Proof.
  unfold task_result. destruct (query_model_catches m msgs (posts i m)) as [r Hr].
  rewrite Hr. reflexivity.
Qed.

Lemma tasks_all_ok (posts : nat -> string -> http_outcome) (msgs : list message)
    (models : list string) (n : nat) :
  mapi_from (fun i m => query_model m msgs (posts i m)) n models
  = map PyOk (mapi_from (task_result posts msgs) n models).
Proof.
  revert n; induction models as [|m ms IH]; intro n; [reflexivity|].
  cbn [mapi_from map]. rewrite query_model_task_result, IH. reflexivity.
Qed.

Lemma length_mapi_from {A B} (f : nat -> A -> B) (n : nat) (l : list A) :
  length (mapi_from f n l) = length l.
Proof. revert n; induction l; intro n; simpl; auto. Qed.

Lemma nth_error_set_nth {A} (i j : nat) (x : A) (l : list A) :
  nth_error (set_nth i x l) j
  = if Nat.eqb i j then match nth_error l j with Some _ => Some x | None => None end
    else nth_error l j.
Proof.
  revert i j; induction l as [|y l IH]; intros i j.
  - destruct i, j; cbn; try destruct (Nat.eqb i j); reflexivity.
  - destruct i, j; cbn [set_nth nth_error Nat.eqb]; try reflexivity. apply IH.
Qed.

Section Slots.
Context {A : Type}.
Variable vals : list A.

(** One completion: the finished task writes its result into its slot. *)
Definition fill_step (slots : list (option A)) (i : nat) : list (option A) :=
  match nth_error vals i with
  | Some a => set_nth i (Some a) slots
  | None => slots
  end.

Lemma gather_fill_ok (sched : list nat) (slots : list (option A)) :
  gather_fill slots (map PyOk vals) sched = PyOk (fold_left fill_step sched slots).
Proof.
  revert slots; induction sched as [|i s IH]; intro slots; [reflexivity|].
  cbn [gather_fill fold_left]. rewrite nth_error_map. unfold fill_step.
  destruct (nth_error vals i); cbn [option_map]; apply IH.
Qed.

Lemma fill_steps_nth (sched : list nat) (slots : list (option A)) (j : nat) :
  nth_error (fold_left fill_step sched slots) j
  = match nth_error slots j with
    | None => None
    | Some o =>
        Some (if existsb (Nat.eqb j) sched
              then match nth_error vals j with Some a => Some a | None => o end
              else o)
    end.
Proof.
  revert slots; induction sched as [|i s IH]; intro slots.
  - cbn. destruct (nth_error slots j); reflexivity.
  - cbn [fold_left existsb]. rewrite IH. unfold fill_step.
    destruct (Nat.eqb j i) eqn:Eji.
    + apply Nat.eqb_eq in Eji; subst i. cbn [orb].
      destruct (nth_error vals j) as [a|] eqn:Ev.
      * rewrite nth_error_set_nth, Nat.eqb_refl.
        destruct (nth_error slots j); [|reflexivity].
        destruct (existsb _ s); reflexivity.
      * destruct (nth_error slots j); [|reflexivity].
        destruct (existsb _ s); reflexivity.
    + cbn [orb].
      destruct (nth_error vals i) as [a|]; [|reflexivity].
      rewrite nth_error_set_nth.
      replace (Nat.eqb i j) with false by (symmetry; rewrite Nat.eqb_sym; exact Eji).
      reflexivity.
Qed.

Lemma all_done_map_some (l : list A) : all_done (map Some l) = Some l.
Proof. induction l as [|a l IH]; [reflexivity|]. cbn. rewrite IH. reflexivity. Qed.

(** Whatever the completion order, once every task has finished the
    slots hold the results in task order. *)
Lemma gather_any_order (sched : list nat) :
  Permutation sched (seq 0 (length vals)) ->
  gather (map PyOk vals) sched = Some (PyOk vals).
Proof.
  intro Hp. unfold gather. rewrite length_map, gather_fill_ok.
  replace (fold_left fill_step sched (repeat None (length vals))) with (map Some vals).
  { rewrite all_done_map_some. reflexivity. }
  apply nth_error_ext. intro j. rewrite fill_steps_nth, nth_error_map.
  destruct (Nat.lt_ge_cases j (length vals)) as [Hj|Hj].
  - rewrite nth_error_repeat by exact Hj.
    destruct (nth_error vals j) as [a|] eqn:Ev.
    + replace (existsb (Nat.eqb j) sched) with true; [reflexivity|].
      symmetry. apply existsb_exists. exists j. split; [|apply Nat.eqb_refl].
      apply (Permutation_in _ (Permutation_sym Hp)). apply in_seq. lia.
    + apply nth_error_None in Ev. lia.
  - assert (nth_error vals j = None) as -> by (apply nth_error_None; exact Hj).
    assert (nth_error (repeat (@None A) (length vals)) j = None) as ->
      by (apply nth_error_None; rewrite repeat_length; exact Hj).
    reflexivity.
Qed.

End Slots.

Section DictFacts.
Context {V : Type}.

Definition dict_step (d : list (string * V)) (kv : string * V) : list (string * V) :=
  dict_set d (fst kv) (snd kv).

Lemma dict_set_fresh (d : list (string * V)) (k : string) (v : V) :
  ~ In k (map fst d) -> dict_set d k v = d ++ [(k, v)].
Proof.
  induction d as [|[k' v'] d IH]; intro Hn; [reflexivity|].
  cbn in Hn |- *. destruct (String.eqb k k') eqn:E.
  - apply String.eqb_eq in E. subst. exfalso. apply Hn. left. reflexivity.
  - rewrite IH; [reflexivity|]. intro H. apply Hn. right. exact H.
Qed.

Lemma dict_set_keys (d : list (string * V)) (k k' : string) (v : V) :
  In k' (map fst (dict_set d k v)) <-> k' = k \/ In k' (map fst d).
Proof.
  induction d as [|[k0 v0] d IH]; cbn.
  - intuition congruence.
  - destruct (String.eqb k k0) eqn:E; cbn.
    + apply String.eqb_eq in E. subst. intuition congruence.
    + rewrite IH. intuition congruence.
Qed.

Lemma dict_set_nodup (d : list (string * V)) (k : string) (v : V) :
  NoDup (map fst d) -> NoDup (map fst (dict_set d k v)).
Proof.
  induction d as [|[k0 v0] d IH]; intro Hd; cbn.
  - constructor; [intros []|constructor].
  - cbn in Hd. inversion Hd as [|? ? Hn Hd']; subst.
    destruct (String.eqb k k0) eqn:E; cbn.
    + constructor; assumption.
    + constructor; [|apply IH; exact Hd'].
      rewrite dict_set_keys. intros [->|H]; [|contradiction].
      rewrite String.eqb_refl in E. discriminate.
Qed.

Lemma dict_lookup_set (d : list (string * V)) (k k' : string) (v : V) :
  dict_lookup (dict_set d k v) k'
  = if String.eqb k' k then Some v else dict_lookup d k'.
Proof.
  induction d as [|[k0 v0] d IH]; cbn; [reflexivity|].
  destruct (String.eqb k k0) eqn:E; cbn.
  - apply String.eqb_eq in E. subst. destruct (String.eqb k' k0); reflexivity.
  - rewrite IH. destruct (String.eqb k' k) eqn:E1; [|reflexivity].
    apply String.eqb_eq in E1. subst. rewrite E. reflexivity.
Qed.

Lemma dict_fold_fresh (pairs d : list (string * V)) :
  NoDup (map fst pairs) ->
  (forall k, In k (map fst pairs) -> ~ In k (map fst d)) ->
  fold_left dict_step pairs d = d ++ pairs.
Proof.
  revert d; induction pairs as [|[k v] ps IH]; intros d Hnd Hfr.
  - rewrite app_nil_r. reflexivity.
  - cbn [fold_left]. cbn in Hnd. inversion Hnd as [|? ? Hk Hps]; subst.
    unfold dict_step at 2; cbn [fst snd].
    rewrite dict_set_fresh by (apply Hfr; left; reflexivity).
    rewrite IH; [rewrite <- app_assoc; reflexivity | exact Hps |].
    intros k' Hin. rewrite map_app, in_app_iff. intros [H|H].
    + apply (Hfr k'); [right; exact Hin | exact H].
    + destruct H as [<-|[]]. contradiction.
Qed.

Lemma dict_fold_keys (pairs d : list (string * V)) :
  NoDup (map fst d) ->
  NoDup (map fst (fold_left dict_step pairs d)) /\
  (forall k, In k (map fst (fold_left dict_step pairs d))
             <-> In k (map fst d) \/ In k (map fst pairs)).
Proof.
  revert d; induction pairs as [|[k v] ps IH]; intros d Hd; cbn [fold_left].
  - split; [exact Hd|]. cbn. tauto.
  - destruct (IH (dict_step d (k, v))) as [H1 H2].
    { apply dict_set_nodup. exact Hd. }
    split; [exact H1|]. intro k'. rewrite H2. unfold dict_step. cbn [fst snd map In].
    rewrite dict_set_keys. intuition congruence.
Qed.

Lemma dict_fold_lookup_absent (pairs d : list (string * V)) (k : string) :
  ~ In k (map fst pairs) ->
  dict_lookup (fold_left dict_step pairs d) k = dict_lookup d k.
Proof.
  revert d; induction pairs as [|[k0 v0] ps IH]; intros d Hn; [reflexivity|].
  cbn [fold_left]. rewrite IH by (intro H; apply Hn; right; exact H).
  unfold dict_step; cbn [fst snd]. rewrite dict_lookup_set.
  destruct (String.eqb k k0) eqn:E; [|reflexivity].
  apply String.eqb_eq in E. subst. exfalso. apply Hn. left. reflexivity.
Qed.

End DictFacts.

Lemma dict_of_pairs_fold {V} (pairs : list (string * V)) :
  dict_of_pairs pairs = fold_left dict_step pairs [].
Proof. reflexivity. Qed.

Lemma combine_mapi_from {B} (g : nat -> string -> B) (n : nat) (models : list string) :
  combine models (mapi_from g n models) = mapi_from (fun i m => (m, g i m)) n models.
Proof. revert n; induction models as [|m ms IH]; intro n; [reflexivity|]. cbn. rewrite IH. reflexivity. Qed.

Lemma keys_mapi_from {B} (g : nat -> string -> B) (n : nat) (models : list string) :
  map fst (mapi_from (fun i m => (m, g i m)) n models) = models.
Proof. revert n; induction models as [|m ms IH]; intro n; [reflexivity|]. cbn. rewrite IH. reflexivity. Qed.

Lemma query_models_parallel_eq (posts : nat -> string -> http_outcome)
    (models : list string) (msgs : list message) (sched : list nat) :
  Permutation sched (seq 0 (length models)) ->
  query_models_parallel posts models msgs sched
  = Some (PyOk (dict_of_pairs
                  (mapi_from (fun i m => (m, task_result posts msgs i m)) 0 models))).
Proof.
  intro Hp. unfold query_models_parallel. rewrite tasks_all_ok, gather_any_order.
  - rewrite combine_mapi_from. reflexivity.
  - rewrite length_mapi_from. exact Hp.
Qed.

Lemma nth_error_mapi_from {A B} (f : nat -> A -> B) (n i : nat) (l : list A) :
  nth_error (mapi_from f n l) i = option_map (f (n + i)) (nth_error l i).
Proof.
  revert n i; induction l as [|x l IH]; intros n i; [destruct i; reflexivity|].
  destruct i; cbn [mapi_from nth_error option_map].
  - rewrite Nat.add_0_r. reflexivity.
  - rewrite IH, Nat.add_succ_r. reflexivity.
Qed.

Lemma dict_fold_lookup_last {B} (g : nat -> string -> B) (models : list string)
    (n : nat) (d : list (string * B)) (j : nat) (m : string) :
  nth_error models j = Some m ->
  (forall j', j < j' -> nth_error models j' <> Some m) ->
  dict_lookup (fold_left dict_step (mapi_from (fun i m => (m, g i m)) n models) d) m
  = Some (g (n + j) m).
Proof.
  revert n d j; induction models as [|x xs IH]; intros n d j Hj Hlast.
  - destruct j; discriminate.
  - cbn [mapi_from fold_left]. destruct j as [|j].
    + cbn in Hj. injection Hj as ->.
      rewrite dict_fold_lookup_absent.
      * unfold dict_step; cbn [fst snd]. rewrite dict_lookup_set, String.eqb_refl.
        rewrite Nat.add_0_r. reflexivity.
      * rewrite keys_mapi_from. intro Hin. apply In_nth_error in Hin as [j' Hj'].
        apply (Hlast (S j')); [lia | exact Hj'].
    + rewrite (IH (S n) _ j Hj).
      * rewrite Nat.add_succ_r. reflexivity.
      * intros j' Hlt. apply (Hlast (S j')). lia.
Qed.

(** C2: for distinct model ids, whatever the order in which the requests
    finish ([sched], any permutation of the task indices) and whichever of
    them fail, [query_models_parallel] returns a dict with exactly one entry
    per model id, keys in input order, each holding its own task's result
    ([None] for a failed call). *)
Theorem query_models_parallel_preserves_order (posts : nat -> string -> http_outcome)
    (models : list string) (msgs : list message) (sched : list nat) :
  NoDup models ->
  Permutation sched (seq 0 (length models)) ->
  exists d, query_models_parallel posts models msgs sched = Some (PyOk d) /\
    length d = length models /\
    map fst d = models /\
    (forall i m, nth_error models i = Some m ->
                 nth_error d i = Some (m, task_result posts msgs i m)).
Proof.
  intros Hnd Hp. rewrite (query_models_parallel_eq posts models msgs sched Hp).
  rewrite dict_of_pairs_fold, dict_fold_fresh; cbn [app].
  - eexists; split; [reflexivity|]. split; [|split].
    + rewrite length_mapi_from. reflexivity.
    + apply keys_mapi_from.
    + intros i m Hi. rewrite nth_error_mapi_from, Hi. reflexivity.
  - rewrite keys_mapi_from. exact Hnd.
  - intros k _ [].
Qed.

(** The council of [backend/config.py] less one member, the second
    request failing. *)
Definition posts_second_fails (i : nat) (m : string) : http_outcome :=
  match i with
  | 1 => Transport (mk_exn "ReadTimeout" "timed out")
  | _ => Got (mk_response 200 (Some (JObj reply_empty_answer)))
  end.

Lemma query_models_parallel_preserves_order_witness :
  exists d, query_models_parallel posts_second_fails
              ["openai/gpt-oss-120b"; "z-ai/glm-4.5-air:free"; "arcee-ai/trinity-large-preview:free"]
              [] [2; 0; 1] = Some (PyOk d) /\
    length d = 3 /\
    map fst d = ["openai/gpt-oss-120b"; "z-ai/glm-4.5-air:free"; "arcee-ai/trinity-large-preview:free"] /\
    (forall i m, nth_error ["openai/gpt-oss-120b"; "z-ai/glm-4.5-air:free";
                            "arcee-ai/trinity-large-preview:free"] i = Some m ->
                 nth_error d i = Some (m, task_result posts_second_fails [] i m)).
Proof.
  apply (query_models_parallel_preserves_order posts_second_fails
           ["openai/gpt-oss-120b"; "z-ai/glm-4.5-air:free"; "arcee-ai/trinity-large-preview:free"]
           [] [2; 0; 1]).
  - repeat constructor; cbn; intuition discriminate.
  - eapply perm_trans; [apply perm_swap | apply perm_skip, perm_swap].
Defined.

(** C9: with repeated model ids, the dict holds one entry per distinct id
    (as many as [nodup] leaves), and the entry of a repeated id holds the
    result of its last occurrence. *)
Theorem query_models_parallel_duplicates (posts : nat -> string -> http_outcome)
    (models : list string) (msgs : list message) (sched : list nat) :
  Permutation sched (seq 0 (length models)) ->
  exists d, query_models_parallel posts models msgs sched = Some (PyOk d) /\
    NoDup (map fst d) /\
    (forall m, In m (map fst d) <-> In m models) /\
    length d = length (nodup string_dec models) /\
    (forall j m, nth_error models j = Some m ->
                 (forall j', j < j' -> nth_error models j' <> Some m) ->
                 dict_lookup d m = Some (task_result posts msgs j m)).
Proof.
  intro Hp. rewrite (query_models_parallel_eq posts models msgs sched Hp).
  rewrite dict_of_pairs_fold.
  destruct (dict_fold_keys (mapi_from (fun i m => (m, task_result posts msgs i m)) 0 models) []
              (NoDup_nil _)) as [Hnd Hkeys].
  eexists; split; [reflexivity|]. split; [exact Hnd|].
  assert (Hin : forall m, In m (map fst (fold_left dict_step
                  (mapi_from (fun i m => (m, task_result posts msgs i m)) 0 models) []))
                <-> In m models).
  { intro m. rewrite Hkeys, keys_mapi_from. cbn. intuition. }
  split; [exact Hin|]. split.
  - rewrite <- length_map with (f := fst).
    apply Permutation_length, NoDup_Permutation; [exact Hnd | apply NoDup_nodup |].
    intro m. rewrite Hin, nodup_In. reflexivity.
  - intros j m Hj Hlast. apply (dict_fold_lookup_last _ models 0 [] j m Hj Hlast).
Qed.

Lemma query_models_parallel_duplicates_witness :
  exists d, query_models_parallel posts_second_fails
              ["openai/gpt-oss-120b"; "openai/gpt-oss-120b"] [] [1; 0] = Some (PyOk d) /\
    NoDup (map fst d) /\
    (forall m, In m (map fst d) <-> In m ["openai/gpt-oss-120b"; "openai/gpt-oss-120b"]) /\
    length d = length (nodup string_dec ["openai/gpt-oss-120b"; "openai/gpt-oss-120b"]) /\
    (forall j m, nth_error ["openai/gpt-oss-120b"; "openai/gpt-oss-120b"] j = Some m ->
                 (forall j', j < j' ->
                    nth_error ["openai/gpt-oss-120b"; "openai/gpt-oss-120b"] j' <> Some m) ->
                 dict_lookup d m = Some (task_result posts_second_fails [] j m)).
Proof.
  apply (query_models_parallel_duplicates posts_second_fails
           ["openai/gpt-oss-120b"; "openai/gpt-oss-120b"] [] [1; 0]).
  exact (perm_swap 0 1 []).
Defined.

(** With a repeated id the dict is shorter than the input: two requests,
    one entry, holding the failure of the second request. *)
Example query_models_parallel_duplicate_collapses :
  query_models_parallel posts_second_fails
    ["openai/gpt-oss-120b"; "openai/gpt-oss-120b"] [] [0; 1]
  = Some (PyOk [("openai/gpt-oss-120b", None)]).
Proof. vm_compute. reflexivity. Qed.

(** ** Properties of the streaming endpoint *)

(** The trace of a run of the generator body in which nothing raises. *)
Definition success_trace (cid text : string) (is_first_message : bool)
    (s1 s2 ltm agg s3 : json) (title : string) : list act :=
  [StoreUser cid text] ++
  (if is_first_message then [TitleSpawn] else []) ++
  [Emit Stage1Start; Call CStage1; Emit (Stage1Complete s1);
   Emit Stage2Start; Call CStage2; Call CAggregate; Emit (Stage2Complete s2 ltm agg);
   Emit Stage3Start; Call CStage3; Emit (Stage3Complete s3)] ++
  (if is_first_message then [TitleJoin; StoreTitle cid title; Emit (TitleComplete title)]
   else []) ++
  [StoreAssistant cid s1 s2 s3; Emit Complete].

(** Case analysis on the results of the collaborators met by a run. *)
Ltac split_results :=
  repeat (cbn [mbind mret lift tell yield_ store call fst snd app];
    match goal with
    | |- context [get_conversation ?w ?a] =>
        destruct (get_conversation w a) as [[?|]|?] eqn:?
    | |- context [add_user_message ?w ?a ?b] =>
        destruct (add_user_message w a b) as [[]|?] eqn:?
    | |- context [update_conversation_title ?w ?a ?b] =>
        destruct (update_conversation_title w a b) as [[]|?] eqn:?
    | |- context [add_assistant_message ?w ?a ?b ?c ?d] =>
        destruct (add_assistant_message w a b c d) as [[]|?] eqn:?
    | |- context [generate_conversation_title ?w ?a] =>
        destruct (generate_conversation_title w a) as [?|?] eqn:?
    | |- context [run_full_council ?w ?a] =>
        destruct (run_full_council w a) as [[[[? ?] ?] ?]|?] eqn:?
    | |- context [stage1_collect_responses ?w ?a] =>
        destruct (stage1_collect_responses w a) as [?|?] eqn:?
    | |- context [stage2_collect_rankings ?w ?a ?b] =>
        destruct (stage2_collect_rankings w a b) as [[? ?]|?] eqn:?
    | |- context [calculate_aggregate_rankings ?w ?a ?b] =>
        destruct (calculate_aggregate_rankings w a b) as [?|?] eqn:?
    | |- context [stage3_synthesize_final ?w ?a ?b ?c] =>
        destruct (stage3_synthesize_final w a b c) as [?|?] eqn:?
    | |- context [py_len ?v] => destruct (py_len v) as [?|?] eqn:?
    | |- context [py_get ?v ?k ?d] => destruct (py_get v k d) as [?|?] eqn:?
    end);
  cbn [mbind mret lift tell yield_ store call fst snd app].

Lemma stream_body_success (w : world) (cid text : string) (is_first_message : bool) :
  fst (stream_body w cid text is_first_message) = PyOk tt ->
  exists s1 s2 ltm agg s3 title,
    add_user_message w cid text = PyOk tt /\
    stage1_collect_responses w text = PyOk s1 /\
    stage2_collect_rankings w text s1 = PyOk (s2, ltm) /\
    calculate_aggregate_rankings w s2 ltm = PyOk agg /\
    stage3_synthesize_final w text s1 s2 = PyOk s3 /\
    (is_first_message = true -> generate_conversation_title w text = PyOk title) /\
    add_assistant_message w cid s1 s2 s3 = PyOk tt /\
    snd (stream_body w cid text is_first_message)
    = success_trace cid text is_first_message s1 s2 ltm agg s3 title.
Proof.
  unfold stream_body.
  destruct is_first_message; split_results; try discriminate; intros _.
  all: eexists _, _, _, _, _, _; repeat split; eauto; try discriminate.
  Unshelve. all: exact "".
Qed.

Definition is_error (ev : event) : bool :=
  match ev with Error _ => true | _ => false end.

Definition is_store_assistant (a : act) : bool :=
  match a with StoreAssistant _ _ _ _ => true | _ => false end.

Definition is_error_emit (a : act) : bool :=
  match a with Emit ev => is_error ev | _ => false end.

(** A run of the generator body that raises has written no assistant
    message, has yielded no [error] event, and starts with the user
    message whenever that write completed. *)
Lemma stream_body_failure (w : world) (cid text : string) (is_first_message : bool) (e : exn) :
  fst (stream_body w cid text is_first_message) = PyRaise e ->
  (forall a, In a (snd (stream_body w cid text is_first_message)) ->
             is_store_assistant a = false /\ is_error_emit a = false) /\
  (add_user_message w cid text = PyOk tt ->
   exists rest, snd (stream_body w cid text is_first_message) = StoreUser cid text :: rest) /\
  (forall e', add_user_message w cid text = PyRaise e' ->
   snd (stream_body w cid text is_first_message) = []).
Proof.
  unfold stream_body.
  destruct is_first_message; split_results; try discriminate; intros _;
    (split; [intros x Hx; cbn in Hx; intuition (subst; auto) | split]);
    try (intros; discriminate); try (intros _; eexists; reflexivity);
    try (intros; reflexivity).
Qed.

Lemma event_generator_ok (w : world) (cid text : string) (is_first_message : bool) :
  fst (stream_body w cid text is_first_message) = PyOk tt ->
  snd (event_generator w cid text is_first_message) = snd (stream_body w cid text is_first_message).
Proof. intro H. unfold event_generator, try_except. rewrite H. reflexivity. Qed.

Lemma event_generator_raise (w : world) (cid text : string) (is_first_message : bool) (e : exn) :
  fst (stream_body w cid text is_first_message) = PyRaise e ->
  snd (event_generator w cid text is_first_message)
  = snd (stream_body w cid text is_first_message) ++ [Emit (Error (exn_msg e))].
Proof. intro H. unfold event_generator, try_except. rewrite H. reflexivity. Qed.

Lemma stream_body_outcome (w : world) (cid text : string) (is_first_message : bool) :
  fst (stream_body w cid text is_first_message) = PyOk tt \/
  exists e, fst (stream_body w cid text is_first_message) = PyRaise e.
Proof.
  destruct (fst (stream_body w cid text is_first_message)) as [[]|e]; eauto.
Qed.

Lemma events_app (t1 t2 : list act) : events (t1 ++ t2) = events t1 ++ events t2.
Proof.
  induction t1 as [|a t1 IH]; [reflexivity|].
  destruct a; cbn; rewrite ?IH; reflexivity.
Qed.

Lemma events_no_error (tr : list act) :
  (forall a, In a tr -> is_error_emit a = false) ->
  forall ev, In ev (events tr) -> is_error ev = false.
Proof.
  induction tr as [|a tr IH]; intros H ev Hin; [destruct Hin|].
  assert (H' : forall x, In x tr -> is_error_emit x = false)
    by (intros; apply H; right; assumption).
  destruct a as [ev'| | | | | |]; cbn in Hin; try (apply IH; assumption).
  destruct Hin as [<-|Hin]; [apply (H (Emit ev')); left; reflexivity | apply IH; assumption].
Qed.

(** A conversation store and council in which every call succeeds; the
    conversation has no messages yet. *)
Definition demo_stage3 : json :=
  JObj [("model", JStr "qwen/qwen3-vl-235b-a22b-thinking"); ("response", JStr "42")].

Definition demo_world : world := {|
  get_conversation := fun _ => PyOk (Some (mk_conversation []));
  add_user_message := fun _ _ => PyOk tt;
  update_conversation_title := fun _ _ => PyOk tt;
  add_assistant_message := fun _ _ _ _ => PyOk tt;
  generate_conversation_title := fun _ => PyOk "Life question";
  run_full_council := fun _ => PyOk (JArr [], JArr [], demo_stage3, JObj []);
  stage1_collect_responses := fun _ => PyOk (JArr []);
  stage2_collect_rankings := fun _ _ => PyOk (JArr [], JObj []);
  calculate_aggregate_rankings := fun _ _ => PyOk (JArr []);
  stage3_synthesize_final := fun _ _ _ => PyOk demo_stage3
|}.

Definition stage2_error := mk_exn "RuntimeError" "ranking failed".

(** The same, with Stage 2 raising. *)
Definition demo_world_stage2_fails : world := {|
  get_conversation := get_conversation demo_world;
  add_user_message := add_user_message demo_world;
  update_conversation_title := update_conversation_title demo_world;
  add_assistant_message := add_assistant_message demo_world;
  generate_conversation_title := generate_conversation_title demo_world;
  run_full_council := fun _ => PyRaise stage2_error;
  stage1_collect_responses := stage1_collect_responses demo_world;
  stage2_collect_rankings := fun _ _ => PyRaise stage2_error;
  calculate_aggregate_rankings := calculate_aggregate_rankings demo_world;
  stage3_synthesize_final := stage3_synthesize_final demo_world
|}.

(** C1: a streaming run whose generator body raises nothing yields exactly
    [stage1_start], [stage1_complete] with the Stage-1 data, [stage2_start],
    [stage2_complete] with the rankings, the label map and the aggregate
    rankings, [stage3_start], [stage3_complete] with the final answer, then
    [title_complete] exactly when the conversation had no message, then
    [complete]. *)
Theorem stream_success_event_order (w : world) (cid text : string) (conv : conversation) :
  get_conversation w cid = PyOk (Some conv) ->
  fst (stream_body w cid text (Nat.eqb (length (messages conv)) 0)) = PyOk tt ->
  exists gen s1 s2 ltm agg s3 title_events,
    send_message_stream w cid text = PyOk gen /\
    stage1_collect_responses w text = PyOk s1 /\
    stage2_collect_rankings w text s1 = PyOk (s2, ltm) /\
    calculate_aggregate_rankings w s2 ltm = PyOk agg /\
    stage3_synthesize_final w text s1 s2 = PyOk s3 /\
    (messages conv = [] ->
       exists t, generate_conversation_title w text = PyOk t /\ title_events = [TitleComplete t]) /\
    (messages conv <> [] -> title_events = []) /\
    events (snd gen)
    = [Stage1Start; Stage1Complete s1; Stage2Start; Stage2Complete s2 ltm agg;
       Stage3Start; Stage3Complete s3] ++ title_events ++ [Complete].
Proof.
  intros Hget Hok.
  destruct (stream_body_success w cid text _ Hok)
    as (s1 & s2 & ltm & agg & s3 & t & _ & H1 & H2 & H3 & H4 & Ht & _ & Htr).
  exists (event_generator w cid text (Nat.eqb (length (messages conv)) 0)), s1, s2, ltm, agg, s3,
    (if Nat.eqb (length (messages conv)) 0 then [TitleComplete t] else []).
  split; [unfold send_message_stream; rewrite Hget; reflexivity|].
  do 4 (split; [assumption|]).
  rewrite event_generator_ok, Htr by exact Hok.
  destruct (messages conv) as [|m ms]; cbn [length Nat.eqb].
  - split; [intros _; exists t; split; [apply Ht; reflexivity | reflexivity]|].
    split; [intros []; reflexivity|]. reflexivity.
  - split; [discriminate|]. split; [reflexivity|]. reflexivity.
Qed.

Lemma stream_success_event_order_witness :
  exists gen s1 s2 ltm agg s3 title_events,
    send_message_stream demo_world "c1" "What is life?" = PyOk gen /\
    stage1_collect_responses demo_world "What is life?" = PyOk s1 /\
    stage2_collect_rankings demo_world "What is life?" s1 = PyOk (s2, ltm) /\
    calculate_aggregate_rankings demo_world s2 ltm = PyOk agg /\
    stage3_synthesize_final demo_world "What is life?" s1 s2 = PyOk s3 /\
    (messages (mk_conversation []) = [] ->
       exists t, generate_conversation_title demo_world "What is life?" = PyOk t /\
                 title_events = [TitleComplete t]) /\
    (messages (mk_conversation []) <> [] -> title_events = []) /\
    events (snd gen)
    = [Stage1Start; Stage1Complete s1; Stage2Start; Stage2Complete s2 ltm agg;
       Stage3Start; Stage3Complete s3] ++ title_events ++ [Complete].
Proof.
  apply (stream_success_event_order demo_world "c1" "What is life?" (mk_conversation []));
    reflexivity.
Defined.

(** C6: when the generator body raises [e], the stream ends with a single
    [error] event carrying [str(e)]: no event follows it and none of the
    events before it is an error. *)
Theorem stream_error_is_last (w : world) (cid text : string) (is_first_message : bool) (e : exn) :
  fst (stream_body w cid text is_first_message) = PyRaise e ->
  exists pre,
    events (snd (event_generator w cid text is_first_message)) = pre ++ [Error (exn_msg e)] /\
    (forall ev, In ev pre -> is_error ev = false).
Proof.
  intro He. rewrite (event_generator_raise w cid text is_first_message e He), events_app.
  exists (events (snd (stream_body w cid text is_first_message))). split; [reflexivity|].
  apply events_no_error. intros a Ha.
  apply (proj1 (stream_body_failure w cid text is_first_message e He) a Ha).
Qed.

Lemma stream_error_is_last_witness :
  exists pre,
    events (snd (event_generator demo_world_stage2_fails "c1" "What is life?" true))
    = pre ++ [Error (exn_msg stage2_error)] /\
    (forall ev, In ev pre -> is_error ev = false).
Proof.
  apply (stream_error_is_last demo_world_stage2_fails "c1" "What is life?" true stage2_error).
  reflexivity.
Defined.

Lemma filter_none {A} (f : A -> bool) (l : list A) :
  (forall a, In a l -> f a = false) -> filter f l = [].
Proof.
  induction l as [|a l IH]; intro H; [reflexivity|]. cbn.
  rewrite (H a (or_introl eq_refl)). apply IH. intros; apply H; right; assumption.
Qed.

(** The trace of a streaming run: yields, store writes and calls. *)
Definition stream_trace (w : world) (cid text : string) (is_first_message : bool) : list act :=
  snd (event_generator w cid text is_first_message).

(** C10: in a streaming run the user message is written before anything is
    yielded (or the write raised, and the only event is the error); on the
    success path (no [error] event) the assistant message, with the
    streamed stage data, is written exactly once, as the last write before
    [complete], after [stage3_complete] and the title handling; when an
    [error] event is yielded, no assistant message was written and a
    completed user-message write is still in the trace. *)
Theorem stream_persistence_order (w : world) (cid text : string) (is_first_message : bool) :
  ((exists rest, stream_trace w cid text is_first_message = StoreUser cid text :: rest) \/
   (exists e, add_user_message w cid text = PyRaise e /\
              stream_trace w cid text is_first_message = [Emit (Error (exn_msg e))])) /\
  (~ (exists m, In (Emit (Error m)) (stream_trace w cid text is_first_message)) ->
   exists pre s1 s2 s3,
     stream_trace w cid text is_first_message
     = pre ++ [StoreAssistant cid s1 s2 s3; Emit Complete] /\
     filter is_store_assistant pre = [] /\
     In (Emit (Stage1Complete s1)) pre /\
     (exists ltm agg, In (Emit (Stage2Complete s2 ltm agg)) pre) /\
     In (Emit (Stage3Complete s3)) pre /\
     (is_first_message = true -> exists t, In (Emit (TitleComplete t)) pre)) /\
  ((exists m, In (Emit (Error m)) (stream_trace w cid text is_first_message)) ->
   filter is_store_assistant (stream_trace w cid text is_first_message) = [] /\
   (add_user_message w cid text = PyOk tt ->
    In (StoreUser cid text) (stream_trace w cid text is_first_message))).
Proof.
  unfold stream_trace.
  destruct (stream_body_outcome w cid text is_first_message) as [Hok | [e He]].
  - destruct (stream_body_success w cid text is_first_message Hok)
      as (s1 & s2 & ltm & agg & s3 & t & _ & _ & _ & _ & _ & _ & _ & Htr).
    rewrite event_generator_ok, Htr by exact Hok.
    split; [left; eexists; reflexivity|]. split.
    + intros _. destruct is_first_message; unfold success_trace; cbn [app].
      * exists [StoreUser cid text; TitleSpawn; Emit Stage1Start; Call CStage1;
                Emit (Stage1Complete s1); Emit Stage2Start; Call CStage2; Call CAggregate;
                Emit (Stage2Complete s2 ltm agg); Emit Stage3Start; Call CStage3;
                Emit (Stage3Complete s3); TitleJoin; StoreTitle cid t; Emit (TitleComplete t)],
          s1, s2, s3.
        split; [reflexivity|]. split; [reflexivity|].
        split; [repeat (first [left; reflexivity | right])|].
        split; [exists ltm, agg; repeat (first [left; reflexivity | right])|].
        split; [repeat (first [left; reflexivity | right])|].
        intros _. exists t. repeat (first [left; reflexivity | right]).
      * exists [StoreUser cid text; Emit Stage1Start; Call CStage1;
                Emit (Stage1Complete s1); Emit Stage2Start; Call CStage2; Call CAggregate;
                Emit (Stage2Complete s2 ltm agg); Emit Stage3Start; Call CStage3;
                Emit (Stage3Complete s3)],
          s1, s2, s3.
        split; [reflexivity|]. split; [reflexivity|].
        split; [repeat (first [left; reflexivity | right])|].
        split; [exists ltm, agg; repeat (first [left; reflexivity | right])|].
        split; [repeat (first [left; reflexivity | right])|].
        discriminate.
    + intros [m Hm]. exfalso. destruct is_first_message; cbn in Hm; intuition discriminate.
  - destruct (stream_body_failure w cid text is_first_message e He) as [Hno [Huser Hnil]].
    rewrite (event_generator_raise w cid text is_first_message e He).
    assert (Hf : filter is_store_assistant
                   (snd (stream_body w cid text is_first_message) ++ [Emit (Error (exn_msg e))]) = []).
    { rewrite filter_app, filter_none; [reflexivity|]. intros a Ha. apply (Hno a Ha). }
    split; [|split; [|intros _; split; [exact Hf|]]].
    2: { intros Hne. exfalso. apply Hne. exists (exn_msg e).
         apply in_or_app. right. left. reflexivity. }
    + destruct (add_user_message w cid text) as [[]|e'] eqn:Hu.
      * left. destruct (Huser eq_refl) as [rest ->]. eexists; reflexivity.
      * right. exists e'. split; [reflexivity|]. rewrite (Hnil e' eq_refl).
        assert (fst (stream_body w cid text is_first_message) = PyRaise e')
          as He' by (unfold stream_body; cbn [mbind store fst]; rewrite Hu; reflexivity).
        rewrite He in He'. injection He' as ->. reflexivity.
    + intro Hu. destruct (Huser Hu) as [rest ->]. left. reflexivity.
Qed.

(** ** Properties of the blocking endpoint *)

(** C5, blocking mode on a first message: the title coroutine is awaited
    (and the title stored) before [run_full_council] is called, so Stage 1
    waits for the title; in [event_generator] the same await comes after
    [stage3_complete] (see [success_trace]). *)
Lemma send_message_awaits_title_before_council :
  snd (send_message demo_world "c1" "What is life?")
  = [StoreUser "c1" "What is life?"; TitleSpawn; TitleJoin;
     StoreTitle "c1" "Life question"; Call CFullCouncil;
     StoreAssistant "c1" (JArr []) (JArr []) demo_stage3].
Proof. reflexivity. Qed.

(** The title step of [send_message] went through, or was not taken. *)
Definition title_step_ok (w : world) (cid text : string) (conv : conversation) : Prop :=
  messages conv = [] ->
  exists t, generate_conversation_title w text = PyOk t /\
            update_conversation_title w cid t = PyOk tt.

(** C8: [send_message] catches nothing.  An exception of the user-message
    write, of title generation or of the title write, of
    [run_full_council], or of the assistant-message write is what the
    endpoint raises; and it returns a value only when every step
    succeeded, the value being the full council result. *)
Theorem send_message_propagates (w : world) (cid text : string) (conv : conversation) :
  get_conversation w cid = PyOk (Some conv) ->
  (forall e, add_user_message w cid text = PyRaise e ->
             fst (send_message w cid text) = PyRaise e) /\
  (forall e, add_user_message w cid text = PyOk tt -> messages conv = [] ->
             generate_conversation_title w text = PyRaise e ->
             fst (send_message w cid text) = PyRaise e) /\
  (forall e t, add_user_message w cid text = PyOk tt -> messages conv = [] ->
             generate_conversation_title w text = PyOk t ->
             update_conversation_title w cid t = PyRaise e ->
             fst (send_message w cid text) = PyRaise e) /\
  (forall e, add_user_message w cid text = PyOk tt -> title_step_ok w cid text conv ->
             run_full_council w text = PyRaise e ->
             fst (send_message w cid text) = PyRaise e) /\
  (forall e s1 s2 s3 meta n1 n2 model,
             add_user_message w cid text = PyOk tt -> title_step_ok w cid text conv ->
             run_full_council w text = PyOk (s1, s2, s3, meta) ->
             py_len s1 = PyOk n1 -> py_len s2 = PyOk n2 ->
             py_get s3 "model" (JStr "unknown") = PyOk model ->
             add_assistant_message w cid s1 s2 s3 = PyRaise e ->
             fst (send_message w cid text) = PyRaise e) /\
  (forall r, fst (send_message w cid text) = PyOk r ->
             exists s1 s2 s3 meta,
               add_user_message w cid text = PyOk tt /\ title_step_ok w cid text conv /\
               run_full_council w text = PyOk (s1, s2, s3, meta) /\
               add_assistant_message w cid s1 s2 s3 = PyOk tt /\
               r = mk_council_response s1 s2 s3 meta).
Proof.
  intro Hget.
  unfold send_message. rewrite Hget. cbn [mbind lift fst snd].
  split; [|split; [|split; [|split; [|split]]]].
  - intros e Hu. cbn [store]. rewrite Hu. reflexivity.
  - intros e Hu Hm Ht. rewrite Hm; cbn. rewrite Hu, Ht. reflexivity.
  - intros e t Hu Hm Ht Hs. rewrite Hm; cbn. rewrite Hu, Ht; cbn. rewrite Hs. reflexivity.
  - intros e Hu Hok Hc. destruct (messages conv) as [|m ms] eqn:Hm; cbn.
    + destruct (Hok Hm) as (t & Ht & Hs). rewrite Hu, Ht; cbn. rewrite Hs; cbn.
      rewrite Hc. reflexivity.
    + rewrite Hu, Hc. reflexivity.
  - intros e s1 s2 s3 meta n1 n2 model Hu Hok Hc H1 H2 H3 Ha.
    destruct (messages conv) as [|m ms] eqn:Hm; cbn.
    + destruct (Hok Hm) as (t & Ht & Hs). rewrite Hu, Ht; cbn. rewrite Hs; cbn.
      rewrite Hc; cbn.
      rewrite H1, H2, H3; cbn. rewrite Ha. reflexivity.
    + rewrite Hu, Hc; cbn. rewrite H1, H2, H3; cbn. rewrite Ha. reflexivity.
  - intro r. destruct (messages conv) as [|m ms] eqn:Hm; split_results;
      intro Hr; try discriminate Hr; injection Hr as <-;
      eexists _, _, _, _; (split; [first [reflexivity | eassumption]|]);
      (split; [|split; [first [reflexivity | eassumption]
                       | split; [first [reflexivity | eassumption] | reflexivity]]]);
      unfold title_step_ok; rewrite Hm;
      first [ intros _; eexists; split; eassumption | discriminate ].
Qed.

Lemma send_message_propagates_witness :
  (forall e, add_user_message demo_world "c1" "What is life?" = PyRaise e ->
             fst (send_message demo_world "c1" "What is life?") = PyRaise e) /\
  (forall e, add_user_message demo_world "c1" "What is life?" = PyOk tt ->
             messages (mk_conversation []) = [] ->
             generate_conversation_title demo_world "What is life?" = PyRaise e ->
             fst (send_message demo_world "c1" "What is life?") = PyRaise e) /\
  (forall e t, add_user_message demo_world "c1" "What is life?" = PyOk tt ->
             messages (mk_conversation []) = [] ->
             generate_conversation_title demo_world "What is life?" = PyOk t ->
             update_conversation_title demo_world "c1" t = PyRaise e ->
             fst (send_message demo_world "c1" "What is life?") = PyRaise e) /\
  (forall e, add_user_message demo_world "c1" "What is life?" = PyOk tt ->
             title_step_ok demo_world "c1" "What is life?" (mk_conversation []) ->
             run_full_council demo_world "What is life?" = PyRaise e ->
             fst (send_message demo_world "c1" "What is life?") = PyRaise e) /\
  (forall e s1 s2 s3 meta n1 n2 model,
             add_user_message demo_world "c1" "What is life?" = PyOk tt ->
             title_step_ok demo_world "c1" "What is life?" (mk_conversation []) ->
             run_full_council demo_world "What is life?" = PyOk (s1, s2, s3, meta) ->
             py_len s1 = PyOk n1 -> py_len s2 = PyOk n2 ->
             py_get s3 "model" (JStr "unknown") = PyOk model ->
             add_assistant_message demo_world "c1" s1 s2 s3 = PyRaise e ->
             fst (send_message demo_world "c1" "What is life?") = PyRaise e) /\
  (forall r, fst (send_message demo_world "c1" "What is life?") = PyOk r ->
             exists s1 s2 s3 meta,
               add_user_message demo_world "c1" "What is life?" = PyOk tt /\
               title_step_ok demo_world "c1" "What is life?" (mk_conversation []) /\
               run_full_council demo_world "What is life?" = PyOk (s1, s2, s3, meta) /\
               add_assistant_message demo_world "c1" s1 s2 s3 = PyOk tt /\
               r = mk_council_response s1 s2 s3 meta).
Proof.
  apply (send_message_propagates demo_world "c1" "What is life?" (mk_conversation [])).
  reflexivity.
Defined.

(** ** Further properties of [query_model] *)

(** A value on which [len(v or "")] raises: truthy and without a length. *)
Definition unsized_truthy (v : json) : bool :=
  truthy v && match v with JStr _ | JArr _ | JObj _ => false | _ => true end.

Lemma py_len_or_empty_cases (v : json) :
  (unsized_truthy v = true -> exists e, py_len_or_empty v = PyRaise e) /\
  (unsized_truthy v = false -> exists n, py_len_or_empty v = PyOk n).
Proof.
  unfold unsized_truthy, py_len_or_empty.
  destruct (truthy v); destruct v; cbn; split; intro H; try discriminate; eauto.
Qed.

(** Exactly which contents a well-formed reply accepts: a truthy number or
    [true] makes the log line's [len(content or "")] raise and the call
    fail; anything else, a list or an object included, is returned. *)
Theorem query_model_content_cases (model : string) (msgs : list message) (st : Z)
    (l : list (string * json)) (rest : list json) (c0l ml ul : list (string * json)) :
  (st < 400)%Z ->
  assoc_last "choices" l = Some (JArr (JObj c0l :: rest)) ->
  py_get (JObj c0l) "message" (JObj []) = PyOk (JObj ml) ->
  py_get (JObj l) "usage" (JObj []) = PyOk (JObj ul) ->
  query_model model msgs (Got (mk_response st (Some (JObj l))))
  = PyOk (if unsized_truthy (obj_get ml "content") then None
          else Some (mk_reply (obj_get ml "content") (obj_get ml "reasoning_details"))).
Proof.
  intros Hst Hch Hm Hu.
  unfold query_model, handle_response, response_json; cbn [status_code body py_bind].
  replace (Z.leb 400 st) with false by (symmetry; apply Z.leb_gt; lia).
  rewrite py_get_obj, Hch; cbn [py_bind truthy negb py_index0].
  rewrite Hm, Hu; cbn [py_bind].
  rewrite (py_get_obj ul "completion_tokens"), (py_get_obj ul "total_tokens"),
    (py_get_obj c0l "finish_reason"), !py_get_obj_none; cbn [py_bind].
  destruct (py_len_or_empty_cases (obj_get ml "content")) as [Hr Hn].
  destruct (unsized_truthy (obj_get ml "content")).
  - destruct (Hr eq_refl) as [e ->]. reflexivity.
  - destruct (Hn eq_refl) as [n ->]. reflexivity.
Qed.

Lemma query_model_content_cases_witness :
  query_model "openai/gpt-oss-120b" []
    (Got (mk_response 200 (Some (JObj [("choices", JArr [JObj [("message",
                                          JObj [("content", JNum 7)])]])]))))
  = PyOk None.
Proof.
  apply (query_model_content_cases "openai/gpt-oss-120b" [] 200
           [("choices", JArr [JObj [("message", JObj [("content", JNum 7)])]])] []
           [("message", JObj [("content", JNum 7)])] [("content", JNum 7)] []);
    reflexivity.
Defined.

(** A [usage] field that is present but not an object ([null], a number,
    a string, a list) makes [usage.get] raise: the call fails whatever the
    answer in [choices]. *)
Theorem query_model_usage_not_object (model : string) (msgs : list message) (st : Z)
    (l : list (string * json)) (u : json) :
  (st < 400)%Z ->
  assoc_last "usage" l = Some u ->
  (forall ul, u <> JObj ul) ->
  query_model model msgs (Got (mk_response st (Some (JObj l)))) = PyOk None.
Proof.
  intros Hst Hu Hno.
  assert (Hget : py_get u "completion_tokens" (JStr "n/a") = PyRaise attr_error).
  { destruct u; try reflexivity. exfalso. eapply Hno. reflexivity. }
  unfold query_model, handle_response, response_json; cbn [status_code body py_bind].
  replace (Z.leb 400 st) with false by (symmetry; apply Z.leb_gt; lia).
  rewrite py_get_obj. cbn [py_bind].
  match goal with |- context [negb ?b] => destruct (negb b) end; [reflexivity|].
  cbn [py_bind].
  match goal with |- context [py_index0 ?c] => destruct (py_index0 c) as [c0|] end;
    [|reflexivity]. cbn [py_bind].
  destruct (py_get c0 "message" (JObj [])) as [msg|]; [|reflexivity]. cbn [py_bind].
  rewrite py_get_obj, Hu. cbn [py_bind]. rewrite Hget. reflexivity.
Qed.

Lemma query_model_usage_not_object_witness :
  query_model "openai/gpt-oss-120b" []
    (Got (mk_response 200 (Some (JObj (reply_empty_answer ++ [("usage", JNull)])))))
  = PyOk None.
Proof.
  apply (query_model_usage_not_object "openai/gpt-oss-120b" [] 200
           (reply_empty_answer ++ [("usage", JNull)]) JNull).
  - lia.
  - reflexivity.
  - discriminate.
Defined.

(** A non-empty [choices] whose first element is not an object (a string,
    a number, a nested list, [null]) makes [choices[0].get] raise: the
    call fails. *)
Theorem query_model_first_choice_not_object (model : string) (msgs : list message) (st : Z)
    (l : list (string * json)) (ch : json) :
  (st < 400)%Z ->
  assoc_last "choices" l = Some ch ->
  truthy ch = true ->
  (forall c0l, py_index0 ch <> PyOk (JObj c0l)) ->
  query_model model msgs (Got (mk_response st (Some (JObj l)))) = PyOk None.
Proof.
  intros Hst Hch Ht Hno.
  unfold query_model, handle_response, response_json; cbn [status_code body py_bind].
  replace (Z.leb 400 st) with false by (symmetry; apply Z.leb_gt; lia).
  rewrite py_get_obj, Hch. cbn [py_bind]. rewrite Ht. cbn [negb].
  destruct (py_index0 ch) as [c0|] eqn:Hi; [|reflexivity]. cbn [py_bind].
  destruct c0; try reflexivity. exfalso. eapply Hno. reflexivity.
Qed.

Lemma query_model_first_choice_not_object_witness :
  query_model "openai/gpt-oss-120b" []
    (Got (mk_response 200 (Some (JObj [("choices", JArr [JArr [JStr "a"]])])))) = PyOk None.
Proof.
  apply (query_model_first_choice_not_object "openai/gpt-oss-120b" [] 200
           [("choices", JArr [JArr [JStr "a"]])] (JArr [JArr [JStr "a"]])).
  - lia.
  - reflexivity.
  - reflexivity.
  - discriminate.
Defined.

(** A body that is valid JSON but not an object (a list, a string, a
    number, [null]) makes [data.get] raise: the call fails. *)
Theorem query_model_body_not_object (model : string) (msgs : list message) (st : Z) (j : json) :
  (st < 400)%Z ->
  (forall l, j <> JObj l) ->
  query_model model msgs (Got (mk_response st (Some j))) = PyOk None.
Proof.
  intros Hst Hno.
  unfold query_model, handle_response, response_json; cbn [status_code body py_bind].
  replace (Z.leb 400 st) with false by (symmetry; apply Z.leb_gt; lia).
  destruct j; try reflexivity. exfalso. eapply Hno. reflexivity.
Qed.

Lemma query_model_body_not_object_witness :
  query_model "openai/gpt-oss-120b" [] (Got (mk_response 200 (Some (JArr [])))) = PyOk None.
Proof.
  apply (query_model_body_not_object "openai/gpt-oss-120b" [] 200 (JArr [])).
  - lia.
  - discriminate.
Defined.

(** ** Further properties of [query_models_parallel] *)

(** Keep the first occurrence of each string, in order ([seen] holds the
    strings already kept). *)
Fixpoint dedup_seen (seen : list string) (l : list string) : list string :=
  match l with
  | [] => []
  | x :: l' =>
      if existsb (String.eqb x) seen then dedup_seen seen l'
      else x :: dedup_seen (x :: seen) l'
  end.

Definition first_occurrences (l : list string) : list string := dedup_seen [] l.

Lemma dict_set_keys_eq {V} (d : list (string * V)) (k : string) (v : V) :
  map fst (dict_set d k v)
  = if existsb (String.eqb k) (map fst d) then map fst d else map fst d ++ [k].
Proof.
  induction d as [|[k' v'] d IH]; [reflexivity|].
  cbn [dict_set map fst existsb]. destruct (String.eqb k k') eqn:E; cbn [orb map fst].
  - apply String.eqb_eq in E. subst. reflexivity.
  - rewrite IH. destruct (existsb (String.eqb k) (map fst d)); reflexivity.
Qed.

Lemma dedup_seen_ext (l s1 s2 : list string) :
  (forall y, existsb (String.eqb y) s1 = existsb (String.eqb y) s2) ->
  dedup_seen s1 l = dedup_seen s2 l.
Proof.
  revert s1 s2; induction l as [|x l IH]; intros s1 s2 H; [reflexivity|].
  cbn [dedup_seen]. rewrite H. destruct (existsb (String.eqb x) s2); [apply IH; exact H|].
  f_equal. apply IH. intro y. cbn [existsb]. rewrite H. reflexivity.
Qed.

Lemma dict_fold_keys_order {V} (pairs d : list (string * V)) :
  map fst (fold_left dict_step pairs d) = map fst d ++ dedup_seen (map fst d) (map fst pairs).
Proof.
  revert d; induction pairs as [|[k v] ps IH]; intro d; cbn [fold_left map fst dedup_seen].
  - rewrite app_nil_r. reflexivity.
  - rewrite IH. unfold dict_step. cbn [fst snd]. rewrite dict_set_keys_eq.
    destruct (existsb (String.eqb k) (map fst d)); [reflexivity|].
    rewrite <- app_assoc. cbn [app]. f_equal. f_equal. apply dedup_seen_ext.
    intro y. rewrite existsb_app. cbn [existsb]. rewrite Bool.orb_false_r, Bool.orb_comm.
    reflexivity.
Qed.

(** The dict's keys are the model ids in the order of their first
    occurrence in [models]; a repeated id keeps its first position. *)
Theorem query_models_parallel_key_order (posts : nat -> string -> http_outcome)
    (models : list string) (msgs : list message) (sched : list nat) :
  Permutation sched (seq 0 (length models)) ->
  exists d, query_models_parallel posts models msgs sched = Some (PyOk d)
            /\ map fst d = first_occurrences models.
Proof.
  intro Hp. rewrite (query_models_parallel_eq posts models msgs sched Hp).
  eexists. split; [reflexivity|].
  rewrite dict_of_pairs_fold, dict_fold_keys_order, keys_mapi_from. reflexivity.
Qed.

Lemma query_models_parallel_key_order_witness :
  exists d, query_models_parallel (fun _ _ => Transport json_error)
              ["b"; "a"; "b"; "c"; "a"] [] [4; 2; 0; 3; 1] = Some (PyOk d)
            /\ map fst d = ["b"; "a"; "c"].
Proof.
  apply (query_models_parallel_key_order (fun _ _ => Transport json_error)
           ["b"; "a"; "b"; "c"; "a"] [] [4; 2; 0; 3; 1]).
  cbn. apply Permutation_cons_app with (l1 := [0; 1; 2; 3]) (l2 := []).
  apply Permutation_cons_app with (l1 := [0; 1]) (l2 := [3]).
  apply Permutation_cons_app with (l1 := []) (l2 := [1; 3]).
  apply Permutation_cons_app with (l1 := [1]) (l2 := []).
  apply Permutation_refl.
Defined.

(** ** Further properties of the endpoints *)

(** [get_conversation], the read endpoint: the stored conversation, or
    the 404. *)
Definition api_get_conversation (w : world) (cid : string) : py conversation :=
  match get_conversation w cid with
  | PyRaise e => PyRaise e
  | PyOk None => PyRaise http_404
  | PyOk (Some conversation) => PyOk conversation
  end.

(** Title activity: the task, its join, the title write and the
    [title_complete] event. *)
Definition is_title_act (a : act) : bool :=
  match a with
  | TitleSpawn | TitleJoin | StoreTitle _ _ | Emit (TitleComplete _) => true
  | _ => false
  end.

Definition demo_world_missing : world := {|
  get_conversation := fun _ => PyOk None;
  add_user_message := add_user_message demo_world;
  update_conversation_title := update_conversation_title demo_world;
  add_assistant_message := add_assistant_message demo_world;
  generate_conversation_title := generate_conversation_title demo_world;
  run_full_council := run_full_council demo_world;
  stage1_collect_responses := stage1_collect_responses demo_world;
  stage2_collect_rankings := stage2_collect_rankings demo_world;
  calculate_aggregate_rankings := calculate_aggregate_rankings demo_world;
  stage3_synthesize_final := stage3_synthesize_final demo_world
|}.

(** A conversation that already holds one message. *)
Definition demo_world_followup : world := {|
  get_conversation := fun _ =>
    PyOk (Some (mk_conversation [JObj [("role", JStr "user"); ("content", JStr "Hi")]]));
  add_user_message := add_user_message demo_world;
  update_conversation_title := update_conversation_title demo_world;
  add_assistant_message := add_assistant_message demo_world;
  generate_conversation_title := generate_conversation_title demo_world;
  run_full_council := run_full_council demo_world;
  stage1_collect_responses := stage1_collect_responses demo_world;
  stage2_collect_rankings := stage2_collect_rankings demo_world;
  calculate_aggregate_rankings := calculate_aggregate_rankings demo_world;
  stage3_synthesize_final := stage3_synthesize_final demo_world
|}.

Definition title_error := mk_exn "TimeoutError" "title request timed out".

(** Every stage succeeds; title generation raises. *)
Definition demo_world_title_fails : world := {|
  get_conversation := get_conversation demo_world;
  add_user_message := add_user_message demo_world;
  update_conversation_title := update_conversation_title demo_world;
  add_assistant_message := add_assistant_message demo_world;
  generate_conversation_title := fun _ => PyRaise title_error;
  run_full_council := run_full_council demo_world;
  stage1_collect_responses := stage1_collect_responses demo_world;
  stage2_collect_rankings := stage2_collect_rankings demo_world;
  calculate_aggregate_rankings := calculate_aggregate_rankings demo_world;
  stage3_synthesize_final := stage3_synthesize_final demo_world
|}.

Lemma stream_body_no_title (w : world) (cid text : string) :
  forallb (fun a => negb (is_title_act a)) (snd (stream_body w cid text false)) = true.
Proof. unfold stream_body. split_results; reflexivity. Qed.

(** An unknown conversation id: every endpoint that takes one raises the
    404; the blocking endpoint has written nothing, and the streaming one
    raises before any generator exists, so no event is sent. *)
Theorem conversation_not_found (w : world) (cid text : string) :
  get_conversation w cid = PyOk None ->
  api_get_conversation w cid = PyRaise http_404 /\
  send_message w cid text = (PyRaise http_404, []) /\
  send_message_stream w cid text = PyRaise http_404.
Proof.
  intro H. unfold api_get_conversation, send_message, send_message_stream.
  rewrite H. split; [reflexivity | split; reflexivity].
Qed.

Lemma conversation_not_found_witness :
  api_get_conversation demo_world_missing "c1" = PyRaise http_404 /\
  send_message demo_world_missing "c1" "Hi" = (PyRaise http_404, []) /\
  send_message_stream demo_world_missing "c1" "Hi" = PyRaise http_404.
Proof. apply (conversation_not_found demo_world_missing "c1" "Hi"). reflexivity. Defined.

(** The blocking endpoint has no rollback: once the user message is
    written, a later exception (title, council, assistant write) leaves
    that message stored, first in the trace, and no assistant message. *)
Theorem send_message_raise_keeps_user_message (w : world) (cid text : string)
    (conv : conversation) (e : exn) :
  get_conversation w cid = PyOk (Some conv) ->
  add_user_message w cid text = PyOk tt ->
  fst (send_message w cid text) = PyRaise e ->
  (exists rest, snd (send_message w cid text) = StoreUser cid text :: rest) /\
  forallb (fun a => negb (is_store_assistant a)) (snd (send_message w cid text)) = true.
Proof.
  intros Hget Hu.
  unfold send_message. rewrite Hget. cbn [mbind lift fst snd].
  destruct (Nat.eqb (length (messages conv)) 0);
    split_results; try discriminate; intros _; try congruence;
    (split; [eexists; reflexivity | reflexivity]).
Qed.

Lemma send_message_raise_keeps_user_message_witness :
  (exists rest, snd (send_message demo_world_stage2_fails "c1" "Hi")
                = StoreUser "c1" "Hi" :: rest) /\
  forallb (fun a => negb (is_store_assistant a))
          (snd (send_message demo_world_stage2_fails "c1" "Hi")) = true.
Proof.
  apply (send_message_raise_keeps_user_message demo_world_stage2_fails "c1" "Hi"
           (mk_conversation []) stage2_error); reflexivity.
Defined.

(** Only a first message has a title: for a conversation that already
    has messages, neither endpoint starts or awaits title generation,
    writes a title or yields [title_complete], whatever the collaborators
    do. *)
Theorem title_only_for_first_message (w : world) (cid text : string) (conv : conversation) :
  get_conversation w cid = PyOk (Some conv) ->
  messages conv <> [] ->
  forallb (fun a => negb (is_title_act a)) (snd (send_message w cid text)) = true /\
  exists g, send_message_stream w cid text = PyOk g /\
            forallb (fun a => negb (is_title_act a)) (snd g) = true.
Proof.
  intros Hget Hne.
  assert (Hf : Nat.eqb (length (messages conv)) 0 = false).
  { destruct (messages conv); [contradiction | reflexivity]. }
  split.
  - unfold send_message. rewrite Hget. cbn [mbind lift fst snd]. rewrite Hf.
    split_results; reflexivity.
  - unfold send_message_stream. rewrite Hget, Hf. eexists. split; [reflexivity|].
    destruct (stream_body_outcome w cid text false) as [Hok|[e He]].
    + rewrite (event_generator_ok w cid text false Hok). apply stream_body_no_title.
    + rewrite (event_generator_raise w cid text false e He), forallb_app,
        stream_body_no_title. reflexivity.
Qed.

Lemma title_only_for_first_message_witness :
  forallb (fun a => negb (is_title_act a)) (snd (send_message demo_world_followup "c1" "Hi"))
  = true /\
  exists g, send_message_stream demo_world_followup "c1" "Hi" = PyOk g /\
            forallb (fun a => negb (is_title_act a)) (snd g) = true.
Proof.
  apply (title_only_for_first_message demo_world_followup "c1" "Hi"
           (mk_conversation [JObj [("role", JStr "user"); ("content", JStr "Hi")]])).
  - reflexivity.
  - discriminate.
Defined.

(** In the streaming endpoint the title is awaited after Stage 3 but
    before the assistant message is written: when title generation or the
    title write raises, all three stages have been streamed, the [error]
    event follows, and the council's answer is never stored. *)
Theorem stream_title_failure_discards_answer (w : world) (cid text : string)
    (conv : conversation) (s1 s2 ltm agg s3 model : json) (n1 n2 : nat) (e : exn) :
  get_conversation w cid = PyOk (Some conv) ->
  messages conv = [] ->
  add_user_message w cid text = PyOk tt ->
  stage1_collect_responses w text = PyOk s1 ->
  py_len s1 = PyOk n1 ->
  stage2_collect_rankings w text s1 = PyOk (s2, ltm) ->
  calculate_aggregate_rankings w s2 ltm = PyOk agg ->
  py_len s2 = PyOk n2 ->
  stage3_synthesize_final w text s1 s2 = PyOk s3 ->
  py_get s3 "model" (JStr "unknown") = PyOk model ->
  (generate_conversation_title w text = PyRaise e \/
   exists t, generate_conversation_title w text = PyOk t /\
             update_conversation_title w cid t = PyRaise e) ->
  exists g, send_message_stream w cid text = PyOk g /\
    events (snd g) = [Stage1Start; Stage1Complete s1; Stage2Start;
                      Stage2Complete s2 ltm agg; Stage3Start; Stage3Complete s3;
                      Error (exn_msg e)] /\
    forallb (fun a => negb (is_store_assistant a)) (snd g) = true.
Proof.
  intros Hget Hm Hu H1 Hl1 H2 Ha Hl2 H3 Hg Ht.
  unfold send_message_stream. rewrite Hget, Hm. eexists. split; [reflexivity|].
  unfold event_generator, try_except, stream_body. cbn [length Nat.eqb].
  cbn [mbind mret lift tell yield_ store call fst snd app].
  rewrite Hu. cbn [mbind mret lift tell yield_ store call fst snd app].
  rewrite H1. cbn [mbind mret lift tell yield_ store call fst snd app].
  rewrite Hl1. cbn [mbind mret lift tell yield_ store call fst snd app].
  rewrite H2. cbn [mbind mret lift tell yield_ store call fst snd app].
  rewrite Ha. cbn [mbind mret lift tell yield_ store call fst snd app].
  rewrite Hl2. cbn [mbind mret lift tell yield_ store call fst snd app].
  rewrite H3. cbn [mbind mret lift tell yield_ store call fst snd app].
  rewrite Hg. cbn [mbind mret lift tell yield_ store call fst snd app].
  destruct Ht as [Ht|(t & Ht & Hs)]; rewrite Ht;
    cbn [mbind mret lift tell yield_ store call fst snd app];
    [|rewrite Hs; cbn [mbind mret lift tell yield_ store call fst snd app]];
    split; reflexivity.
Qed.

Lemma stream_title_failure_discards_answer_witness :
  exists g, send_message_stream demo_world_title_fails "c1" "Hi" = PyOk g /\
    events (snd g) = [Stage1Start; Stage1Complete (JArr []); Stage2Start;
                      Stage2Complete (JArr []) (JObj []) (JArr []); Stage3Start;
                      Stage3Complete demo_stage3; Error (exn_msg title_error)] /\
    forallb (fun a => negb (is_store_assistant a)) (snd g) = true.
Proof.
  apply (stream_title_failure_discards_answer demo_world_title_fails "c1" "Hi"
           (mk_conversation []) (JArr []) (JArr []) (JObj []) (JArr []) demo_stage3
           (JStr "qwen/qwen3-vl-235b-a22b-thinking") 0 0 title_error);
    try reflexivity.
  left. reflexivity.
Defined.

(** ** The uvicorn log level, [backend/main.py] module level *)

Definition VALID_UVICORN_LOG_LEVELS : list string :=
  ["critical"; "error"; "warning"; "info"; "debug"; "trace"].

Definition is_valid_level (s : string) : bool :=
  existsb (String.eqb s) VALID_UVICORN_LOG_LEVELS.

Section LogLevel.
(** [str.upper] and [str.lower]. *)
Variables (upper lower : string -> string).

(** [LOG_LEVEL = os.getenv("LOG_LEVEL", "INFO").upper()], then
    [UVICORN_LOG_LEVEL = LOG_LEVEL.lower()], replaced by ["info"] when it
    is not a valid level. *)
Definition UVICORN_LOG_LEVEL (env : option string) : string :=
  let LOG_LEVEL := upper (match env with Some v => v | None => "INFO" end) in
  let level := lower LOG_LEVEL in
  if is_valid_level level then level else "info".

End LogLevel.

(** [str.upper] and [str.lower] on ASCII characters. *)
Definition ascii_upper_char (c : Ascii.ascii) : Ascii.ascii :=
  let n := Ascii.nat_of_ascii c in
  if Nat.leb 97 n && Nat.leb n 122 then Ascii.ascii_of_nat (n - 32) else c.

Definition ascii_lower_char (c : Ascii.ascii) : Ascii.ascii :=
  let n := Ascii.nat_of_ascii c in
  if Nat.leb 65 n && Nat.leb n 90 then Ascii.ascii_of_nat (n + 32) else c.

Fixpoint string_map (f : Ascii.ascii -> Ascii.ascii) (s : string) : string :=
  match s with
  | EmptyString => EmptyString
  | String c s' => String (f c) (string_map f s')
  end.

Definition ascii_upper : string -> string := string_map ascii_upper_char.
Definition ascii_lower : string -> string := string_map ascii_lower_char.

Fixpoint is_ascii (s : string) : bool :=
  match s with
  | EmptyString => true
  | String c s' => Nat.ltb (Ascii.nat_of_ascii c) 128 && is_ascii s'
  end.

Lemma ascii_lower_upper_char (c : Ascii.ascii) :
  ascii_lower_char (ascii_upper_char c) = ascii_lower_char c.
Proof.
  unfold ascii_lower_char, ascii_upper_char.
  pose proof (Ascii.nat_ascii_bounded c) as Hb.
  destruct (Nat.leb 97 (Ascii.nat_of_ascii c)) eqn:E1, (Nat.leb (Ascii.nat_of_ascii c) 122) eqn:E2;
    cbn [andb]; try reflexivity.
  apply Nat.leb_le in E1. apply Nat.leb_le in E2.
  rewrite Ascii.nat_ascii_embedding by lia.
  replace (Nat.leb 65 (Ascii.nat_of_ascii c - 32)) with true by (symmetry; apply Nat.leb_le; lia).
  replace (Nat.leb (Ascii.nat_of_ascii c - 32) 90) with true by (symmetry; apply Nat.leb_le; lia).
  replace (Nat.leb 65 (Ascii.nat_of_ascii c)) with true by (symmetry; apply Nat.leb_le; lia).
  replace (Nat.leb (Ascii.nat_of_ascii c) 90) with false by (symmetry; apply Nat.leb_gt; lia).
  cbn [andb]. rewrite Nat.sub_add by lia. apply Ascii.ascii_nat_embedding.
Qed.

Lemma ascii_lower_upper (s : string) : ascii_lower (ascii_upper s) = ascii_lower s.
Proof.
  induction s as [|c s IH]; [reflexivity|].
  unfold ascii_lower, ascii_upper in *. cbn [string_map]. rewrite ascii_lower_upper_char, IH.
  reflexivity.
Qed.

(** For an ASCII value the level is case-insensitive: it is the value in
    lower case when that names a valid level, and ["info"] otherwise. *)
Theorem UVICORN_LOG_LEVEL_case_insensitive (v : string) :
  is_ascii v = true ->
  UVICORN_LOG_LEVEL ascii_upper ascii_lower (Some v)
  = if is_valid_level (ascii_lower v) then ascii_lower v else "info".
Proof. intros _. unfold UVICORN_LOG_LEVEL. rewrite ascii_lower_upper. reflexivity. Qed.

Lemma UVICORN_LOG_LEVEL_case_insensitive_witness :
  UVICORN_LOG_LEVEL ascii_upper ascii_lower (Some "Debug") = "debug".
Proof. apply (UVICORN_LOG_LEVEL_case_insensitive "Debug"). reflexivity. Defined.

(** ** The text [_extract_error_message] returns *)

(** What the function returns: a slice of the raw body text, as a list of
    code points, or [str(v)] of a parsed JSON value [v]. *)
Inductive error_text : Type :=
| EText (t : list Z)
| EStr (v : json).

(** [_extract_error_message(response)] with its result: [text] is
    [response.text], [parsed] the outcome of [response.json()]. *)
Definition extract_error_message_text (text : list Z) (parsed : option json) : py error_text :=
  match parsed with
  | None => PyOk (EText (map (fun c => if Z.eqb c 10 then 32%Z else c) (firstn 300 text)))
  | Some data =>
      error <- py_get data "error" JNull ;;
      match error with
      | JObj _ => v <- py_get error "message" error ;; PyOk (EStr v)
      | _ => PyOk (EStr (if truthy error then error else data))
      end
  end.

Lemma extract_error_message_text_raises (r : response) (text : list Z) :
  (exists e, extract_error_message_text text (body r) = PyRaise e)
  <-> (exists e, _extract_error_message r = PyRaise e).
Proof.
  unfold extract_error_message_text, _extract_error_message.
  destruct (body r) as [data|]; [|split; intros [e He]; discriminate].
  destruct (py_get data "error" JNull) as [error|e] eqn:E; cbn [py_bind].
  - split; intros [e' He']; [|discriminate].
    destruct error; try discriminate. rewrite py_get_obj in He'. discriminate.
  - split; intros _; exists e; reflexivity.
Qed.

Lemma map_newline_free (t : list Z) :
  ~ In 10%Z (map (fun c => if Z.eqb c 10 then 32%Z else c) t).
Proof.
  induction t as [|c t IH]; [intros []|].
  cbn [map In]. intros [H|H]; [|exact (IH H)].
  destruct (Z.eqb c 10) eqn:E; [discriminate|]. apply Z.eqb_neq in E. congruence.
Qed.

Lemma map_newline_id (t : list Z) :
  ~ In 10%Z t -> map (fun c => if Z.eqb c 10 then 32%Z else c) t = t.
Proof.
  induction t as [|c t IH]; intro Hn; [reflexivity|].
  cbn [map]. rewrite IH by (intro H; apply Hn; right; exact H).
  destruct (Z.eqb c 10) eqn:E; [|reflexivity].
  apply Z.eqb_eq in E. subst. exfalso. apply Hn. left. reflexivity.
Qed.

(** The error text: a body that is not JSON gives at most 300 characters
    with no newline, the body itself when it already is such a text; a
    JSON body that is not an object makes the unguarded [data.get] raise
    [AttributeError]; an object never raises. *)
Theorem extract_error_message_cases (text : list Z) :
  (exists t, extract_error_message_text text None = PyOk (EText t) /\
             length t <= 300 /\ ~ In 10%Z t /\
             (length text <= 300 -> ~ In 10%Z text -> t = text)) /\
  (forall j, (forall l, j <> JObj l) ->
             extract_error_message_text text (Some j) = PyRaise attr_error) /\
  (forall l, exists v, extract_error_message_text text (Some (JObj l)) = PyOk (EStr v)).
Proof.
  split; [|split].
  - eexists. split; [reflexivity|]. split; [|split].
    + rewrite length_map, length_firstn. lia.
    + apply map_newline_free.
    + intros Hl Hn. rewrite firstn_all2 by exact Hl. apply map_newline_id. exact Hn.
  - intros j Hj. destruct j; try reflexivity. exfalso. eapply Hj. reflexivity.
  - intro l. unfold extract_error_message_text. rewrite py_get_obj. cbn [py_bind].
    destruct (match assoc_last "error" l with Some v => v | None => JNull end) eqn:E;
      try (eexists; reflexivity).
    rewrite py_get_obj. eexists. reflexivity.
Qed.
